(** * Timeout manager of the test worker

    A shallow embedding of [packages/playwright/src/worker/timeoutManager.ts]
    and the properties of its slot resolution, phase switching, budget
    adjustment and timeout error reporting.

    Conventions of the embedding.
    - A JavaScript [number] holding a duration, a line or a column is an
      integer of [Z] (milliseconds are integral and stay inside the range
      in which doubles are exact); [0] is the only falsy one.
    - A [TimeSlot] is a mutable object shared by reference: descriptions
      hold a [slot_ref], and the objects live in a [Heap].
    - A method that mutates [this] or a slot is a function on [State]; an
      [async] method is a computation of [M], which threads the state and
      settles as [Resolved] or [Rejected]. *)

From Stdlib Require Import ZArith String Ascii List Lia Bool DecimalString.
Import ListNotations.

Local Open Scope Z_scope.
Local Open Scope string_scope.

(** ** Numbers and text *)

(** Template-literal rendering [`${n}`] of an integral number. *)
Definition show (n : Z) : string := NilZero.string_of_int (Z.to_int n).

(** JavaScript truthiness of a number, as tested by [!slot.timeout]. *)
Definition truthy (n : Z) : bool := negb (Z.eqb n 0).

Definition dquote : string := String "034"%char EmptyString.
Definition newline : string := String "010"%char EmptyString.

(** [colors] of [playwright-core/lib/utilsBundle]: terminal styling, an
    external collaborator taken as a parameter. *)
Class Colors := { red : string -> string }.

(** ** Data model *)

Record TimeSlot := { timeout : Z; elapsed : Z }.

Record Location := { file : string; line : Z; column : Z }.

Inductive RunnableType :=
| type_test | type_beforeAll | type_afterAll | type_beforeEach
| type_afterEach | type_slow | type_skip | type_fail | type_fixme
| type_teardown.

(** The string a [RunnableType] is in the source. *)
Definition typeName (t : RunnableType) : string :=
  match t with
  | type_test => "test" | type_beforeAll => "beforeAll"
  | type_afterAll => "afterAll" | type_beforeEach => "beforeEach"
  | type_afterEach => "afterEach" | type_slow => "slow"
  | type_skip => "skip" | type_fail => "fail" | type_fixme => "fixme"
  | type_teardown => "teardown"
  end.

Inductive FixturePhase := phase_setup | phase_teardown.

Definition phaseName (p : FixturePhase) : string :=
  match p with phase_setup => "setup" | phase_teardown => "teardown" end.

(** Address of a [TimeSlot] object. *)
Definition slot_ref := nat.

Module Fixture.
Record t := {
  title : string;
  phase : FixturePhase;
  location : option Location;
  slot : option slot_ref
}.
End Fixture.
Definition FixtureDescription := Fixture.t.

Module Runnable.
Record t := {
  type : RunnableType;
  location : option Location;
  slot : option slot_ref;
  fixture : option FixtureDescription
}.
End Runnable.
Definition RunnableDescription := Runnable.t.

(** ** The store of slot objects *)

Module Heap.
Record t := { next : slot_ref; cell : slot_ref -> TimeSlot }.

Definition get (h : t) (l : slot_ref) : TimeSlot := cell h l.

Definition set (l : slot_ref) (v : TimeSlot) (h : t) : t :=
  {| next := next h;
     cell := fun l' => if Nat.eqb l' l then v else cell h l' |}.

(** [{ timeout, elapsed }]: a new object at an address not in use. *)
Definition alloc (v : TimeSlot) (h : t) : slot_ref * t :=
  (next h, {| next := S (next h);
              cell := fun l' => if Nat.eqb l' (next h) then v else cell h l' |}).

Definition empty : t :=
  {| next := O; cell := fun _ => {| timeout := 0; elapsed := 0 |} |}.
End Heap.

(** [slot.elapsed = e] on the object at [l]. *)
Definition writeElapsed (l : slot_ref) (e : Z) (h : Heap.t) : Heap.t :=
  Heap.set l {| timeout := timeout (Heap.get h l); elapsed := e |} h.

(** [slot.timeout = x] on the object at [l]. *)
Definition writeTimeout (l : slot_ref) (x : Z) (h : Heap.t) : Heap.t :=
  Heap.set l {| timeout := x; elapsed := elapsed (Heap.get h l) |} h.

(** ** Errors and outcomes of asynchronous operations *)

(** What [_createTimeoutError] builds: the fields it sets on the error. *)
Record ErrorFields := { name : string; message : string; stack : string }.

Inductive Error :=
| TimeoutRunnerError
| TimeoutManagerError (e : ErrorFields)
| OtherError (payload : string).

(** [error instanceof TimeoutRunnerError] *)
Definition isTimeoutRunnerError (e : Error) : bool :=
  match e with TimeoutRunnerError => true | _ => false end.

Inductive Outcome (A : Type) :=
| Resolved (v : A)
| Rejected (e : Error).
Arguments Resolved {A} v.
Arguments Rejected {A} e.

(** ** The Timer *)

(** Modelled from the spec: the class [TimeoutRunner] of
    [playwright-core/lib/utils], which this file imports and which is not
    part of it.  The spec's Timer contract: [elapsed()] and [deadline()] are
    pure reads, [updateTimeout(timeout, elapsedSoFar?)] pushes a new
    deadline, [interrupt()] aborts the active race, and [run(operation)]
    gives the operation's result unless the deadline elapses first;
    [tr_timedOut] reads, on the Timer's state when the race settles,
    whether the deadline elapsed first.  Every implementation of this
    interface is covered. *)
Class TimeoutRunner (T : Type) := {
  tr_new : Z -> T;
  tr_elapsed : T -> Z;
  tr_deadline : T -> Z;
  tr_updateTimeout : Z -> option Z -> T -> T;
  tr_interrupt : T -> T;
  tr_timedOut : T -> bool
}.

(** ** State of the manager and of the slots it shares with its callers *)

Record State (T : Type) := {
  _defaultSlot : slot_ref;
  _runnable : RunnableDescription;
  _timeoutRunner : T;
  slots : Heap.t
}.
Arguments _defaultSlot {T} s.
Arguments _runnable {T} s.
Arguments _timeoutRunner {T} s.
Arguments slots {T} s.

(** An asynchronous computation over the state. *)
Definition M (T A : Type) : Type := State T -> Outcome A * State T.

(** [try { body } catch (error) { handler } finally { fin }], where [fin]
    completes normally and so leaves the outcome as it is. *)
Definition try_catch_finally {T A} (body : M T A) (handler : Error -> M T A)
    (fin : State T -> State T) : M T A :=
  fun s =>
    let '(o, s1) := body s in
    let '(o', s2) := match o with
                     | Resolved v => (Resolved v, s1)
                     | Rejected e => handler e s1
                     end in
    (o', fin s2).

(** [throw e] *)
Definition throw {T A} (e : Error) : M T A := fun s => (Rejected e, s).

(** The resting value [{ type: 'test' }]. *)
Definition restingRunnable : RunnableDescription :=
  {| Runnable.type := type_test; Runnable.location := None;
     Runnable.slot := None; Runnable.fixture := None |}.

Section Manager.
Context {T : Type} {timer : TimeoutRunner T} {colors : Colors}.

(** [constructor(timeout)], in the store [h]. *)
Definition constructor (timeout : Z) (h : Heap.t) : State T :=
  let '(l, h') := Heap.alloc {| timeout := timeout; elapsed := 0 |} h in
  {| _defaultSlot := l;
     _runnable := restingRunnable;
     _timeoutRunner := tr_new timeout;
     slots := h' |}.

(** [this._runnable.fixture?.slot] *)
Definition fixtureSlot (r : RunnableDescription) : option slot_ref :=
  match Runnable.fixture r with
  | Some f => Fixture.slot f
  | None => None
  end.

(** Whether the fixture of a runnable, if any, brings no slot of its own. *)
Definition noFixtureSlot (r : RunnableDescription) : Prop :=
  forall f, Runnable.fixture r = Some f -> Fixture.slot f = None.

(** [_currentSlot()]: a slot object is truthy whatever its fields are, so
    each [||] falls through exactly when the slot is absent. *)
Definition _currentSlot (s : State T) : slot_ref :=
  match fixtureSlot (_runnable s) with
  | Some l => l
  | None =>
      match Runnable.slot (_runnable s) with
      | Some l => l
      | None => _defaultSlot s
      end
  end.

(** [interrupt()] *)
Definition interrupt (s : State T) : State T :=
  {| _defaultSlot := _defaultSlot s; _runnable := _runnable s;
     _timeoutRunner := tr_interrupt (_timeoutRunner s); slots := slots s |}.

(** [_updateRunnable(runnable)] *)
Definition _updateRunnable (runnable : RunnableDescription) (s : State T)
    : State T :=
  let slot := _currentSlot s in
  let h1 := writeElapsed slot (tr_elapsed (_timeoutRunner s)) (slots s) in
  let s1 := {| _defaultSlot := _defaultSlot s; _runnable := runnable;
               _timeoutRunner := _timeoutRunner s; slots := h1 |} in
  let slot := _currentSlot s1 in
  {| _defaultSlot := _defaultSlot s1; _runnable := _runnable s1;
     _timeoutRunner :=
       tr_updateTimeout (timeout (Heap.get h1 slot))
                        (Some (elapsed (Heap.get h1 slot)))
                        (_timeoutRunner s1);
     slots := h1 |}.

(** [defaultSlotTimings()]: the state after, and the slot returned. *)
Definition defaultSlotTimings (s : State T) : slot_ref * State T :=
  let slot := _currentSlot s in
  (_defaultSlot s,
   {| _defaultSlot := _defaultSlot s; _runnable := _runnable s;
      _timeoutRunner := _timeoutRunner s;
      slots := writeElapsed slot (tr_elapsed (_timeoutRunner s)) (slots s) |}).

(** [slow()] *)
Definition slow (s : State T) : State T :=
  let slot := _currentSlot s in
  let h1 := writeTimeout slot (timeout (Heap.get (slots s) slot) * 3) (slots s) in
  {| _defaultSlot := _defaultSlot s; _runnable := _runnable s;
     _timeoutRunner :=
       tr_updateTimeout (timeout (Heap.get h1 slot)) None (_timeoutRunner s);
     slots := h1 |}.

(** [setTimeout(timeout)] *)
Definition setTimeout (x : Z) (s : State T) : State T :=
  let slot := _currentSlot s in
  if negb (truthy (timeout (Heap.get (slots s) slot))) then s
  else
    {| _defaultSlot := _defaultSlot s; _runnable := _runnable s;
       _timeoutRunner := tr_updateTimeout x None (_timeoutRunner s);
       slots := writeTimeout slot x (slots s) |}.

(** [currentRunnableType()]: a type is a non-empty string, so the
    [|| 'test'] never applies. *)
Definition currentRunnableType (s : State T) : RunnableType :=
  Runnable.type (_runnable s).

(** [currentSlotDeadline()] *)
Definition currentSlotDeadline (s : State T) : Z :=
  tr_deadline (_timeoutRunner s).

(** The budget of the resolved slot: [this._currentSlot().timeout]. *)
Definition resolvedTimeout (s : State T) : Z :=
  timeout (Heap.get (slots s) (_currentSlot s)).

(** The time already charged to the resolved slot:
    [this._currentSlot().elapsed]. *)
Definition resolvedElapsed (s : State T) : Z :=
  elapsed (Heap.get (slots s) (_currentSlot s)).

(** The [switch] of [_createTimeoutError]. *)
Definition typeMessage (r : RunnableDescription) (timeout : Z) : string :=
  match Runnable.type r with
  | type_test =>
      match Runnable.fixture r with
      | Some f =>
          match Fixture.phase f with
          | phase_setup =>
              "Test timeout of " ++ show timeout
                ++ "ms exceeded while setting up " ++ dquote
                ++ Fixture.title f ++ dquote ++ "."
          | phase_teardown =>
              ("Test finished within timeout of " ++ show timeout
                 ++ "ms, but tearing down " ++ dquote ++ Fixture.title f
                 ++ dquote ++ " ran out of time.")
                ++ newline
                ++ "Please allow more time for the test, since teardown is attributed towards the test timeout budget."
          end
      | None => "Test timeout of " ++ show timeout ++ "ms exceeded."
      end
  | type_afterEach | type_beforeEach =>
      "Test timeout of " ++ show timeout ++ "ms exceeded while running "
        ++ dquote ++ typeName (Runnable.type r) ++ dquote ++ " hook."
  | type_beforeAll | type_afterAll =>
      dquote ++ typeName (Runnable.type r) ++ dquote ++ " hook timeout of "
        ++ show timeout ++ "ms exceeded."
  | type_teardown =>
      match Runnable.fixture r with
      | Some f =>
          "Worker teardown timeout of " ++ show timeout ++ "ms exceeded while "
            ++ match Fixture.phase f with
               | phase_setup => "setting up"
               | phase_teardown => "tearing down"
               end
            ++ " " ++ dquote ++ Fixture.title f ++ dquote ++ "."
      | None => "Worker teardown timeout of " ++ show timeout ++ "ms exceeded."
      end
  | type_skip | type_slow | type_fixme | type_fail =>
      dquote ++ typeName (Runnable.type r) ++ dquote
        ++ " modifier timeout of " ++ show timeout ++ "ms exceeded."
  end.

(** [this._runnable.fixture?.slot ? this._runnable.fixture : undefined] *)
Definition fixtureWithSlot (r : RunnableDescription) : option FixtureDescription :=
  match Runnable.fixture r with
  | Some f => match Fixture.slot f with Some _ => Some f | None => None end
  | None => None
  end.

(** The message of [_createTimeoutError] before it is styled. *)
Definition plainMessage (s : State T) : string :=
  let timeout := resolvedTimeout s in
  match fixtureWithSlot (_runnable s) with
  | Some f =>
      "Fixture " ++ dquote ++ Fixture.title f ++ dquote ++ " timeout of "
        ++ show timeout ++ "ms exceeded during " ++ phaseName (Fixture.phase f)
        ++ "."
  | None => typeMessage (_runnable s) timeout
  end.

(** [(fixtureWithSlot || this._runnable).location] *)
Definition errorLocation (s : State T) : option Location :=
  match fixtureWithSlot (_runnable s) with
  | Some f => Fixture.location f
  | None => Runnable.location (_runnable s)
  end.

(** The suffix of [error.stack]. *)
Definition locationLine (l : option Location) : string :=
  match l with
  | Some loc =>
      newline ++ "    at " ++ file loc ++ ":" ++ show (line loc) ++ ":"
        ++ show (column loc)
  | None => ""
  end.

(** [_createTimeoutError()] *)
Definition _createTimeoutError (s : State T) : ErrorFields :=
  let message := red (plainMessage s) in
  {| name := "";
     message := message;
     stack := message ++ locationLine (errorLocation s) |}.

(** Modelled from the spec: [TimeoutRunner.run(cb)], which is not in this
    file: it gives the operation's outcome, or raises the Timer's timeout
    signal if the deadline elapses first. *)
Definition run {A} (cb : M T A) : M T A :=
  fun s =>
    let '(o, s1) := cb s in
    if tr_timedOut (_timeoutRunner s1) then (Rejected TimeoutRunnerError, s1)
    else (o, s1).

(** [withRunnable(runnable, cb)] *)
Definition withRunnable {A} (runnable : option RunnableDescription)
    (cb : M T A) : M T A :=
  match runnable with
  | None => cb
  | Some r =>
      fun s =>
        try_catch_finally
          (run cb)
          (fun error =>
             if negb (isTimeoutRunnerError error) then throw error
             else fun s1 => throw (TimeoutManagerError (_createTimeoutError s1)) s1)
          (_updateRunnable restingRunnable)
          (_updateRunnable r s)
  end.

End Manager.

(** ** Sequences of calls *)

(** One call [withRunnable(description, operation)] of the orchestrator. *)
Record Call (T A : Type) := {
  description : option RunnableDescription;
  operation : M T A
}.
Arguments description {T A} c.
Arguments operation {T A} c.

Section Calls.
Context {T : Type} {timer : TimeoutRunner T} {colors : Colors} {A : Type}.

(** The calls one after the other, each awaited before the next starts,
    whatever the previous one settled as: the outcome of each and the state
    it leaves. *)
Fixpoint runCalls (calls : list (Call T A)) (s : State T)
    : list (Outcome A * State T) :=
  match calls with
  | [] => []
  | c :: rest =>
      let r := withRunnable (description c) (operation c) s in
      r :: runCalls rest (snd r)
  end.

(** An operation that finds the manager at rest leaves it at rest: the
    current runnable is private to the manager, so an operation changes it
    only through [withRunnable]. *)
Definition keepsResting (op : M T A) : Prop :=
  forall s, currentRunnableType s = type_test ->
            currentRunnableType (snd (op s)) = type_test.

(** A synchronous method used as a step of an operation. *)
Definition lift (f : State T -> State T) (v : A) : M T A :=
  fun s => (Resolved v, f s).

(** [first] and then, when it resolves, [second]. *)
Definition andThen (first second : M T A) : M T A :=
  fun s =>
    match first s with
    | (Resolved _, s1) => second s1
    | (Rejected e, s1) => (Rejected e, s1)
    end.

End Calls.

(** ** Instances of the collaborators *)

(** Modelled from the spec: a Timer that satisfies the Timer contract, with
    a clock that the operations advance.  [updateTimeout] with an elapsed
    reading restarts the accounting from it; a limit of zero disables
    enforcement; the deadline is the instant at which [spent] reaches
    [limit]. *)
Module Stopwatch.
Record t := { now : Z; spent : Z; limit : Z; interrupted : bool }.

Definition new (x : Z) : t :=
  {| now := 0; spent := 0; limit := x; interrupted := false |}.

Definition updateTimeout (x : Z) (e : option Z) (w : t) : t :=
  {| now := now w;
     spent := match e with Some e' => e' | None => spent w end;
     limit := x;
     interrupted := interrupted w |}.

Definition deadline (w : t) : Z :=
  if Z.eqb (limit w) 0 then 0 else now w + limit w - spent w.

Definition interrupt (w : t) : t :=
  {| now := now w; spent := spent w; limit := limit w; interrupted := true |}.

Definition timedOut (w : t) : bool :=
  interrupted w || (negb (Z.eqb (limit w) 0) && Z.leb (limit w) (spent w)).

(** [d] milliseconds pass. *)
Definition advance (d : Z) (w : t) : t :=
  {| now := now w + d; spent := spent w + d; limit := limit w;
     interrupted := interrupted w |}.
End Stopwatch.

Definition stopwatchRunner : TimeoutRunner Stopwatch.t :=
  {| tr_new := Stopwatch.new;
     tr_elapsed := Stopwatch.spent;
     tr_deadline := Stopwatch.deadline;
     tr_updateTimeout := Stopwatch.updateTimeout;
     tr_interrupt := Stopwatch.interrupt;
     tr_timedOut := Stopwatch.timedOut |}.

(** Styling switched off: [colors.red] gives its argument back. *)
Definition plainColors : Colors := {| red := fun m => m |}.

Definition escape : string := String "027"%char EmptyString.

(** Styling switched on: [colors.red] wraps its argument in the escape
    sequences that set and reset the foreground colour. *)
Definition ansiColors : Colors :=
  {| red := fun m => escape ++ "[31m" ++ m ++ escape ++ "[39m" |}.

(** ** Sample phases *)

Module Sample.

Definition W := Stopwatch.t.

(** An operation that takes [d] milliseconds and settles as [o]. *)
Definition takes (d : Z) (o : Outcome Z) : M W Z :=
  fun s =>
    (o, {| _defaultSlot := _defaultSlot s; _runnable := _runnable s;
           _timeoutRunner := Stopwatch.advance d (_timeoutRunner s);
           slots := slots s |}).

Definition loc (f : string) (l c : Z) : Location :=
  {| file := f; line := l; column := c |}.

(** A manager with a default budget of 30 seconds, in a store that already
    holds two slots of the caller: [0] (5 seconds) and [1] (disabled). *)
Definition store : Heap.t :=
  snd (Heap.alloc {| timeout := 0; elapsed := 0 |}
         (snd (Heap.alloc {| timeout := 5000; elapsed := 0 |} Heap.empty))).

Definition manager : State W :=
  @constructor W stopwatchRunner 30000 store.

Definition dbFixture (p : FixturePhase) (sl : option slot_ref) : FixtureDescription :=
  {| Fixture.title := "db"; Fixture.phase := p;
     Fixture.location := Some (loc "fixtures.ts" 12 3); Fixture.slot := sl |}.

Definition hook (ty : RunnableType) (sl : option slot_ref)
    (f : option FixtureDescription) : RunnableDescription :=
  {| Runnable.type := ty; Runnable.location := Some (loc "a.spec.ts" 7 1);
     Runnable.slot := sl; Runnable.fixture := f |}.

(** The manager while [hook] is current (set from outside a call, to look
    at a state in the middle of a phase). *)
Definition during (r : RunnableDescription) : State W :=
  @_updateRunnable W stopwatchRunner r manager.

(** The phases used below: a [beforeAll] hook on the caller's slot [0], a
    test on the disabled slot [1], and hooks whose fixture has, or has not,
    a slot of its own. *)
Definition beforeAllHook : RunnableDescription :=
  hook type_beforeAll (Some 0%nat) None.

Definition debugTest : RunnableDescription :=
  hook type_test (Some 1%nat) None.

Definition fixtureTeardown : RunnableDescription :=
  hook type_beforeEach (Some 1%nat) (Some (dbFixture phase_teardown (Some 0%nat))).

Definition fixtureSetup : RunnableDescription :=
  hook type_beforeEach (Some 1%nat) (Some (dbFixture phase_setup None)).

(** Four calls, one after the other: a hook that runs out of its 5
    seconds, a test body that throws, an unguarded operation that calls
    [slow] and then runs a fixture phase of its own, and a hook that
    resolves. *)
Definition calls : list (Call W Z) :=
  [ {| description := Some beforeAllHook;
       operation := takes 6000 (Resolved 1) |};
    {| description := Some restingRunnable;
       operation := takes 10 (Rejected (OtherError "boom")) |};
    {| description := None;
       operation :=
         andThen (lift (@slow W stopwatchRunner) 0)
                 (@withRunnable W stopwatchRunner plainColors Z
                    (Some fixtureTeardown) (takes 5 (Resolved 2))) |};
    {| description := Some (hook type_afterEach None None);
       operation := takes 20 (Resolved 3) |} ].

End Sample.

(** ** Adjustments of the budget within a phase *)

(** A call of [slow()] or of [setTimeout(x)]. *)
Inductive Adjustment := DoSlow | DoSetTimeout (x : Z).

Section Adjustments.
Context {T : Type} {timer : TimeoutRunner T}.

Definition adjust (a : Adjustment) (s : State T) : State T :=
  match a with
  | DoSlow => slow s
  | DoSetTimeout x => setTimeout x s
  end.

(** The adjustments one after the other. *)
Definition adjustAll (l : list Adjustment) (s : State T) : State T :=
  fold_left (fun s' a => adjust a s') l s.

(** An operation during which time passes on the Timer and nothing else
    happens to the manager or to the slots. *)
Definition onlyTimePasses {A : Type} (cb : M T A) : Prop :=
  forall s, _defaultSlot (snd (cb s)) = _defaultSlot s
            /\ _runnable (snd (cb s)) = _runnable s
            /\ slots (snd (cb s)) = slots s.

(** An operation that changes no budget. *)
Definition keepsBudgets {A : Type} (cb : M T A) : Prop :=
  forall s l, timeout (Heap.get (slots (snd (cb s))) l)
              = timeout (Heap.get (slots s) l).

(** A Timer whose elapsed reading, right after
    [updateTimeout(timeout, elapsed)], is the elapsed time it was given. *)
Definition creditsElapsed : Prop :=
  forall x e t, tr_elapsed (tr_updateTimeout x (Some e) t) = e.

End Adjustments.

(** ** More sample phases *)

Module Scenario.
Import Sample.

(** A second manager, created in the store the first one lives in. *)
Definition second : State W :=
  @constructor W stopwatchRunner 1000 (slots manager).

(** The first manager 250 milliseconds into its test. *)
Definition later : State W := snd (takes 250 (Resolved 0) manager).

(** A hook without a slot of its own, with a fixture without one. *)
Definition plainHook (ty : RunnableType) : RunnableDescription :=
  hook ty None (Some (dbFixture phase_setup None)).

End Scenario.

(** * Properties *)

(** ** The store *)

Lemma get_set_same (l : slot_ref) (v : TimeSlot) (h : Heap.t) :
  Heap.get (Heap.set l v h) l = v.
Proof. unfold Heap.get, Heap.set; simpl. now rewrite Nat.eqb_refl. Qed.

Lemma get_set_other (l l' : slot_ref) (v : TimeSlot) (h : Heap.t) :
  l' <> l -> Heap.get (Heap.set l v h) l' = Heap.get h l'.
Proof.
  intros Hne. unfold Heap.get, Heap.set; simpl.
  apply Nat.eqb_neq in Hne. now rewrite Hne.
Qed.

Lemma get_alloc (v : TimeSlot) (h : Heap.t) :
  Heap.get (snd (Heap.alloc v h)) (fst (Heap.alloc v h)) = v.
Proof. unfold Heap.get, Heap.alloc; simpl. now rewrite Nat.eqb_refl. Qed.

Lemma append_empty (m : string) : m ++ "" = m.
Proof. induction m as [| c m IH]; simpl; [reflexivity | now rewrite IH]. Qed.

Section Properties.
Context {T : Type} {timer : TimeoutRunner T} {colors : Colors} {A : Type}.

(** ** Slot resolution *)

Lemma fixtureSlot_none (r : RunnableDescription) :
  noFixtureSlot r -> fixtureSlot r = None.
Proof.
  unfold noFixtureSlot, fixtureSlot. intros Hno.
  destruct (Runnable.fixture r) as [f|]; [now apply Hno | reflexivity].
Qed.

Lemma fixtureWithSlot_none (r : RunnableDescription) :
  noFixtureSlot r -> fixtureWithSlot r = None.
Proof.
  unfold noFixtureSlot, fixtureWithSlot. intros Hno.
  destruct (Runnable.fixture r) as [f|]; [| reflexivity].
  now rewrite (Hno f eq_refl).
Qed.

(** C1. The slot resolved for the current runnable is the slot of its
    fixture when the fixture has one, else the runnable's own slot when it
    has one, else the default slot of the manager.  [_currentSlot] is a
    total function from the state to a slot and returns no new state: the
    resolution always succeeds and changes nothing. *)
Theorem currentSlot_chain (s : State T) :
  (forall f l, Runnable.fixture (_runnable s) = Some f ->
               Fixture.slot f = Some l -> _currentSlot s = l)
  /\ (forall l, noFixtureSlot (_runnable s) ->
                Runnable.slot (_runnable s) = Some l -> _currentSlot s = l)
  /\ (noFixtureSlot (_runnable s) ->
      Runnable.slot (_runnable s) = None -> _currentSlot s = _defaultSlot s).
Proof.
  unfold _currentSlot. repeat split.
  - intros f l Hf Hl. unfold fixtureSlot. now rewrite Hf, Hl.
  - intros l Hno Hl. now rewrite (fixtureSlot_none _ Hno), Hl.
  - intros Hno Hl. now rewrite (fixtureSlot_none _ Hno), Hl.
Qed.

(** ** Phase switching *)

Lemma updateRunnable_runnable (r : RunnableDescription) (s : State T) :
  _runnable (_updateRunnable r s) = r.
Proof. reflexivity. Qed.

Lemma withRunnable_present (r : RunnableDescription) (cb : M T A) (s : State T) :
  withRunnable (Some r) cb s =
  (match fst (run cb (_updateRunnable r s)) with
   | Resolved v => Resolved v
   | Rejected e =>
       if isTimeoutRunnerError e
       then Rejected (TimeoutManagerError
                        (_createTimeoutError (snd (run cb (_updateRunnable r s)))))
       else Rejected e
   end,
   _updateRunnable restingRunnable (snd (run cb (_updateRunnable r s)))).
Proof.
  unfold withRunnable, try_catch_finally, throw.
  destruct (run cb (_updateRunnable r s)) as [[v|e] s1]; simpl; [reflexivity |].
  now destruct (isTimeoutRunnerError e).
Qed.

(** C2. A switch of the current runnable stamps the Timer's elapsed reading
    on the slot resolved before the switch and leaves every other slot and
    that slot's budget alone, installs the new runnable, and pushes to the
    Timer the budget and the elapsed time of the slot resolved after the
    switch, as they are once the stamp is made: when the same slot is
    resolved before and after, the Timer is given back its own reading.
    [withRunnable] with a description makes exactly two such switches, to
    the description on entry and to the resting runnable on exit. *)
Theorem updateRunnable_switch (r : RunnableDescription) (cb : M T A) (s : State T) :
  let outgoing := _currentSlot s in
  let reading := tr_elapsed (_timeoutRunner s) in
  let s' := _updateRunnable r s in
  let incoming := _currentSlot s' in
  elapsed (Heap.get (slots s') outgoing) = reading
  /\ timeout (Heap.get (slots s') outgoing) = timeout (Heap.get (slots s) outgoing)
  /\ (forall l, l <> outgoing -> Heap.get (slots s') l = Heap.get (slots s) l)
  /\ _runnable s' = r
  /\ _defaultSlot s' = _defaultSlot s
  /\ _timeoutRunner s' =
       tr_updateTimeout (resolvedTimeout s') (Some (resolvedElapsed s'))
                        (_timeoutRunner s)
  /\ (incoming = outgoing -> resolvedElapsed s' = reading)
  /\ (incoming <> outgoing ->
      resolvedTimeout s' = timeout (Heap.get (slots s) incoming)
      /\ resolvedElapsed s' = elapsed (Heap.get (slots s) incoming))
  /\ snd (withRunnable (Some r) cb s) =
       _updateRunnable restingRunnable (snd (run cb (_updateRunnable r s))).
Proof.
  cbv zeta. unfold resolvedTimeout, resolvedElapsed.
  repeat split.
  - unfold _updateRunnable, writeElapsed; cbn [slots].
    now rewrite get_set_same.
  - unfold _updateRunnable, writeElapsed; cbn [slots].
    now rewrite get_set_same.
  - intros l Hne. unfold _updateRunnable, writeElapsed; cbn [slots].
    now apply get_set_other.
  - intros Heq. rewrite Heq.
    unfold _updateRunnable, writeElapsed; cbn [slots].
    now rewrite get_set_same.
  - unfold _updateRunnable, writeElapsed; cbn [slots].
    rewrite get_set_other; [reflexivity | assumption].
  - unfold _updateRunnable, writeElapsed; cbn [slots].
    rewrite get_set_other; [reflexivity | assumption].
  - now rewrite withRunnable_present.
Qed.

Lemma run_not_timedOut (cb : M T A) (s : State T) :
  tr_timedOut (_timeoutRunner (snd (cb s))) = false -> run cb s = cb s.
Proof.
  unfold run. destruct (cb s) as [o s1]; simpl. now intros ->.
Qed.

Lemma run_state (cb : M T A) (s : State T) : snd (run cb s) = snd (cb s).
Proof.
  unfold run. destruct (cb s) as [o s1]; simpl.
  now destruct (tr_timedOut (_timeoutRunner s1)).
Qed.

Lemma isTimeoutRunnerError_false (e : Error) :
  e <> TimeoutRunnerError -> isTimeoutRunnerError e = false.
Proof. destruct e; [congruence | reflexivity | reflexivity]. Qed.

(** C3. With a description present: a value the operation resolves with,
    the deadline not having elapsed first, is returned as it is; when the
    race fails with the Timer's timeout signal, the call fails with the
    timeout error built for the phase that is current when the race
    settles; a failure of the operation that is not the Timer's signal is
    propagated as it is; in short, every outcome of the race other than the
    Timer's signal is the outcome of the call. *)
Theorem withRunnable_outcome (r : RunnableDescription) (cb : M T A) (s : State T) :
  let s0 := _updateRunnable r s in
  let race := run cb s0 in
  (forall v, fst (cb s0) = Resolved v ->
             tr_timedOut (_timeoutRunner (snd (cb s0))) = false ->
             fst (withRunnable (Some r) cb s) = Resolved v)
  /\ (fst race = Rejected TimeoutRunnerError ->
      fst (withRunnable (Some r) cb s) =
      Rejected (TimeoutManagerError (_createTimeoutError (snd race))))
  /\ (forall e, fst (cb s0) = Rejected e ->
                tr_timedOut (_timeoutRunner (snd (cb s0))) = false ->
                e <> TimeoutRunnerError ->
                fst (withRunnable (Some r) cb s) = Rejected e)
  /\ (fst race <> Rejected TimeoutRunnerError ->
      fst (withRunnable (Some r) cb s) = fst race).
Proof.
  cbv zeta. rewrite withRunnable_present. cbn [fst].
  split; [| split; [| split]].
  - intros v Hv Hlive. now rewrite (run_not_timedOut _ _ Hlive), Hv.
  - now intros ->.
  - intros e He Hlive Hne. rewrite (run_not_timedOut _ _ Hlive), He.
    now rewrite (isTimeoutRunnerError_false _ Hne).
  - intros Hne. destruct (fst (run cb (_updateRunnable r s))) as [v|e];
      [reflexivity |].
    rewrite isTimeoutRunnerError_false; [reflexivity | congruence].
Qed.

(** ** The resting state *)

Lemma withRunnable_present_resting (r : RunnableDescription) (cb : M T A)
    (s : State T) :
  currentRunnableType (snd (withRunnable (Some r) cb s)) = type_test.
Proof. now rewrite withRunnable_present. Qed.

Lemma withRunnable_keepsResting (d : option RunnableDescription) (cb : M T A) :
  (d = None -> keepsResting cb) -> keepsResting (withRunnable d cb).
Proof.
  intros Hcb s Hs. destruct d as [r|].
  - apply withRunnable_present_resting.
  - now apply Hcb.
Qed.

Lemma lift_slow_keepsResting (v : A) : keepsResting (lift slow v).
Proof. intros s Hs. exact Hs. Qed.

Lemma lift_setTimeout_keepsResting (x : Z) (v : A) :
  keepsResting (lift (setTimeout x) v).
Proof.
  intros s Hs. unfold lift, setTimeout; cbn [snd].
  now destruct (negb (truthy (timeout (Heap.get (slots s) (_currentSlot s))))).
Qed.

Lemma andThen_keepsResting (first second : M T A) :
  keepsResting first -> keepsResting second -> keepsResting (andThen first second).
Proof.
  intros H1 H2 s Hs. unfold andThen.
  specialize (H1 s Hs). destruct (first s) as [[v|e] s1]; cbn [snd] in *.
  - now apply H2.
  - exact H1.
Qed.

Lemma runCalls_resting (calls : list (Call T A)) :
  Forall (fun c => description c = None -> keepsResting (operation c)) calls ->
  forall s, currentRunnableType s = type_test ->
            Forall (fun r => currentRunnableType (snd r) = type_test)
                   (runCalls calls s).
Proof.
  induction 1 as [| c rest Hc _ IH]; intros s Hs; cbn [runCalls].
  - constructor.
  - assert (Hnext : currentRunnableType
                      (snd (withRunnable (description c) (operation c) s))
                    = type_test)
      by now apply withRunnable_keepsResting.
    constructor; [exact Hnext | now apply IH].
Qed.

(** C4. A manager is created with a runnable of type [test], and in every
    sequence of calls of [withRunnable] made one after the other the type
    is [test] again when each call has returned, whatever the call settled
    as: resolved, failed or timed out.  (An operation run without a
    description is one that itself leaves a resting manager at rest, as all
    operations built from the manager's methods do.) *)
Theorem resting_between_calls (x : Z) (h : Heap.t) (calls : list (Call T A)) :
  Forall (fun c => description c = None -> keepsResting (operation c)) calls ->
  currentRunnableType (constructor x h) = type_test
  /\ Forall (fun r => currentRunnableType (snd r) = type_test)
            (runCalls calls (constructor x h)).
Proof.
  intros Hcalls. split; [reflexivity |].
  now apply runCalls_resting.
Qed.

(** C8. A call without a description is the operation itself: it settles
    as the operation does, and the runnable, the budget and elapsed time of
    the resolved slot and the Timer's deadline after the call are those the
    operation alone leaves; they are those of before the call when the
    operation does not touch them. *)
Theorem withRunnable_unguarded (cb : M T A) (s : State T) :
  let after := snd (withRunnable None cb s) in
  fst (withRunnable None cb s) = fst (cb s)
  /\ after = snd (cb s)
  /\ (snd (cb s) = s ->
      _runnable after = _runnable s
      /\ resolvedTimeout after = resolvedTimeout s
      /\ resolvedElapsed after = resolvedElapsed s
      /\ currentSlotDeadline after = currentSlotDeadline s
      /\ slots after = slots s).
Proof.
  cbv zeta. unfold withRunnable.
  split; [reflexivity | split; [reflexivity |]].
  intros ->. repeat split.
Qed.

(** ** Budget adjustment *)

Lemma resolvedTimeout_slow (s : State T) :
  resolvedTimeout (slow s) = resolvedTimeout s * 3.
Proof.
  unfold resolvedTimeout, slow, writeTimeout; cbn [slots].
  change (_currentSlot _) with (_currentSlot s) at 1.
  now rewrite get_set_same.
Qed.

Lemma resolvedElapsed_slow (s : State T) :
  resolvedElapsed (slow s) = resolvedElapsed s.
Proof.
  unfold resolvedElapsed, slow, writeTimeout; cbn [slots].
  change (_currentSlot _) with (_currentSlot s) at 1.
  now rewrite get_set_same.
Qed.

Lemma resolvedTimeout_slow_iter (n : nat) (s : State T) :
  resolvedTimeout (Nat.iter n slow s) = resolvedTimeout s * 3 ^ Z.of_nat n.
Proof.
  induction n as [| n IH].
  - change (Nat.iter 0 slow s) with s. change (3 ^ Z.of_nat 0) with 1. lia.
  - change (Nat.iter (S n) slow s) with (slow (Nat.iter n slow s)).
    rewrite resolvedTimeout_slow, IH.
    rewrite Nat2Z.inj_succ, Z.pow_succ_r by lia. lia.
Qed.

(** C5. One call of [slow] makes the budget of the resolved slot three
    times what it was and pushes the new budget to the Timer, leaving the
    elapsed time and the runnable alone; the effect compounds: nine times
    after two calls, twenty-seven times after three. *)
Theorem slow_triples (s : State T) :
  resolvedTimeout (slow s) = 3 * resolvedTimeout s
  /\ _timeoutRunner (slow s) =
       tr_updateTimeout (3 * resolvedTimeout s) None (_timeoutRunner s)
  /\ resolvedElapsed (slow s) = resolvedElapsed s
  /\ _runnable (slow s) = _runnable s
  /\ resolvedTimeout (slow (slow s)) = 9 * resolvedTimeout s
  /\ resolvedTimeout (slow (slow (slow s))) = 27 * resolvedTimeout s.
Proof.
  split; [rewrite resolvedTimeout_slow; lia |].
  split.
  { rewrite <- (Z.mul_comm (resolvedTimeout s)), <- resolvedTimeout_slow.
    reflexivity. }
  split; [apply resolvedElapsed_slow |].
  split; [reflexivity |].
  split; rewrite !resolvedTimeout_slow; lia.
Qed.

Lemma setTimeout_disabled (x : Z) (s : State T) :
  resolvedTimeout s = 0 -> setTimeout x s = s.
Proof.
  unfold resolvedTimeout, setTimeout, truthy. now intros ->.
Qed.

(** C6. [setTimeout(x)] on a resolved budget of zero does nothing: the
    state is the one before, so the budget is still zero and the Timer is
    not told anything.  On a resolved budget that is not zero it makes the
    budget of the resolved slot [x], whatever [x] is, and pushes [x] to the
    Timer, leaving the elapsed time and the runnable alone.  It has no
    failing path. *)
Theorem setTimeout_spec (x : Z) (s : State T) :
  (resolvedTimeout s = 0 ->
   setTimeout x s = s
   /\ resolvedTimeout (setTimeout x s) = 0
   /\ _timeoutRunner (setTimeout x s) = _timeoutRunner s)
  /\ (resolvedTimeout s <> 0 ->
      resolvedTimeout (setTimeout x s) = x
      /\ _timeoutRunner (setTimeout x s) =
           tr_updateTimeout x None (_timeoutRunner s)
      /\ resolvedElapsed (setTimeout x s) = resolvedElapsed s
      /\ _runnable (setTimeout x s) = _runnable s).
Proof.
  split.
  - intros Hz. rewrite (setTimeout_disabled x s Hz). now repeat split.
  - intros Hnz. unfold resolvedTimeout, resolvedElapsed in *.
    unfold setTimeout, truthy.
    apply Z.eqb_neq in Hnz. rewrite Hnz. cbn [negb].
    unfold writeTimeout; cbn [slots _timeoutRunner _runnable].
    change (_currentSlot {| _defaultSlot := _ ; _runnable := _runnable s;
                            _timeoutRunner := _; slots := _ |})
      with (_currentSlot s).
    rewrite get_set_same. now repeat split.
Qed.

(** C10. On a resolved budget of zero [slow] leaves the budget zero, after
    one call and after any number of calls, and [setTimeout] then still
    does nothing: neither of the two turns a disabled budget on again. *)
Theorem slow_keeps_disabled (n : nat) (x : Z) (s : State T) :
  resolvedTimeout s = 0 ->
  resolvedTimeout (slow s) = 0
  /\ resolvedTimeout (Nat.iter n slow s) = 0
  /\ setTimeout x (Nat.iter n slow s) = Nat.iter n slow s.
Proof.
  intros Hz.
  assert (Hn : resolvedTimeout (Nat.iter n slow s) = 0)
    by (rewrite resolvedTimeout_slow_iter, Hz; apply Z.mul_0_l).
  split; [rewrite resolvedTimeout_slow, Hz; reflexivity |].
  split; [exact Hn | now apply setTimeout_disabled].
Qed.

(** ** Timeout errors *)

Lemma fixtureWithSlot_some (r : RunnableDescription) (f : FixtureDescription)
    (l : slot_ref) :
  Runnable.fixture r = Some f -> Fixture.slot f = Some l ->
  fixtureWithSlot r = Some f.
Proof. unfold fixtureWithSlot. now intros -> ->. Qed.

(** C7, as the code has it.  When the fixture of the current runnable has
    a slot of its own, the message of the timeout error is [colors.red] of
    the fixture message, with the fixture's title and phase and the budget
    of the fixture's slot, whatever the type of the runnable, and the
    location line of the stack is that of the fixture's location, not of
    the runnable's.  When no fixture with a slot of its own is current, the
    location line is that of the runnable's location. *)
Theorem fixture_slot_error (s : State T) :
  let e := _createTimeoutError s in
  (forall f l,
      Runnable.fixture (_runnable s) = Some f -> Fixture.slot f = Some l ->
      message e =
        red ("Fixture " ++ dquote ++ Fixture.title f ++ dquote ++ " timeout of "
               ++ show (timeout (Heap.get (slots s) l)) ++ "ms exceeded during "
               ++ phaseName (Fixture.phase f) ++ ".")
      /\ stack e = message e ++ locationLine (Fixture.location f))
  /\ (noFixtureSlot (_runnable s) ->
      stack e = message e ++ locationLine (Runnable.location (_runnable s))).
Proof.
  cbv zeta. unfold _createTimeoutError, plainMessage, errorLocation.
  cbn [message stack]. split.
  - intros f l Hf Hl.
    rewrite (fixtureWithSlot_some _ f l Hf Hl).
    unfold resolvedTimeout, _currentSlot, fixtureSlot. rewrite Hf, Hl.
    split; reflexivity.
  - intros Hno. now rewrite (fixtureWithSlot_none _ Hno).
Qed.

(** C9, as the code has it.  For a runnable of type [test] without a
    fixture, the message of the timeout error is [colors.red] of
    "Test timeout of Xms exceeded.", X being the resolved budget; the name
    of the error is empty; the stack is the message followed, when the
    runnable has a location, by a line "    at file:line:column", and is
    the message alone when it has none. *)
Theorem test_timeout_error (s : State T) :
  Runnable.type (_runnable s) = type_test ->
  Runnable.fixture (_runnable s) = None ->
  let e := _createTimeoutError s in
  message e = red ("Test timeout of " ++ show (resolvedTimeout s) ++ "ms exceeded.")
  /\ name e = ""
  /\ (forall loc, Runnable.location (_runnable s) = Some loc ->
                  stack e = message e ++ newline ++ "    at " ++ file loc ++ ":"
                              ++ show (line loc) ++ ":" ++ show (column loc))
  /\ (Runnable.location (_runnable s) = None -> stack e = message e).
Proof.
  intros Hty Hfx. cbv zeta.
  unfold _createTimeoutError, plainMessage, errorLocation, fixtureWithSlot,
    typeMessage.
  rewrite Hty, Hfx. cbn [message stack name].
  split; [reflexivity | split; [reflexivity | split]].
  - now intros loc ->.
  - intros ->. apply append_empty.
Qed.

End Properties.

(** * The properties on the sample phases *)

Section Witnesses.
Import Sample.
#[local] Existing Instance stopwatchRunner.
#[local] Existing Instance plainColors.

Lemma currentSlot_chain_witness :
  _currentSlot (during fixtureTeardown) = 0%nat
  /\ _currentSlot (during fixtureSetup) = 1%nat
  /\ _currentSlot (during (hook type_afterEach None None)) = 2%nat.
Proof.
  split; [| split].
  - apply (proj1 (currentSlot_chain (during fixtureTeardown))
             (dbFixture phase_teardown (Some 0%nat)) 0%nat); reflexivity.
  - apply (proj1 (proj2 (currentSlot_chain (during fixtureSetup)))).
    + intros f Hf. injection Hf as <-. reflexivity.
    + reflexivity.
  - apply (proj2 (proj2 (currentSlot_chain
                           (during (hook type_afterEach None None))))).
    + intros f Hf. discriminate Hf.
    + reflexivity.
Defined.

Lemma updateRunnable_switch_witness :
  let s := snd (takes 250 (Resolved 0) manager) in
  let s' := _updateRunnable beforeAllHook s in
  Heap.get (slots s') 2%nat = {| timeout := 30000; elapsed := 250 |}
  /\ _timeoutRunner s' = Stopwatch.updateTimeout 5000 (Some 0) (_timeoutRunner s)
  /\ resolvedElapsed (_updateRunnable restingRunnable s') = 250.
Proof.
  cbv zeta.
  pose proof (updateRunnable_switch beforeAllHook (takes 0 (Resolved 0))
                (snd (takes 250 (Resolved 0) manager))) as Hin.
  pose proof (updateRunnable_switch restingRunnable (takes 0 (Resolved 0))
                (_updateRunnable beforeAllHook
                   (snd (takes 250 (Resolved 0) manager)))) as Hout.
  cbv zeta in Hin, Hout.
  destruct Hin as (Hstamp & Hbudget & _ & _ & _ & Hpush & _ & Hother & _).
  destruct Hout as (_ & _ & Hrest & _ & _ & _ & _ & Hback & _).
  split; [| split].
  - vm_compute. reflexivity.
  - rewrite Hpush. vm_compute. reflexivity.
  - rewrite (proj2 (Hback ltac:(vm_compute; discriminate))).
    vm_compute. reflexivity.
Defined.

Lemma withRunnable_outcome_witness :
  fst (withRunnable (Some beforeAllHook) (takes 100 (Resolved 1)) manager)
  = Resolved 1
  /\ fst (withRunnable (Some beforeAllHook) (takes 6000 (Resolved 1)) manager)
     = Rejected (TimeoutManagerError
                   {| name := "";
                      message := dquote ++ "beforeAll" ++ dquote
                                   ++ " hook timeout of 5000ms exceeded.";
                      stack := dquote ++ "beforeAll" ++ dquote
                                 ++ " hook timeout of 5000ms exceeded."
                                 ++ newline ++ "    at a.spec.ts:7:1" |})
  /\ fst (withRunnable (Some beforeAllHook)
            (takes 100 (Rejected (OtherError "boom"))) manager)
     = Rejected (OtherError "boom").
Proof.
  split; [| split].
  - apply (proj1 (withRunnable_outcome beforeAllHook
                    (takes 100 (Resolved 1)) manager));
      vm_compute; reflexivity.
  - rewrite (proj1 (proj2 (withRunnable_outcome beforeAllHook
                             (takes 6000 (Resolved 1)) manager)));
      vm_compute; reflexivity.
  - apply (proj1 (proj2 (proj2 (withRunnable_outcome beforeAllHook
                    (takes 100 (Rejected (OtherError "boom"))) manager))));
      [vm_compute; reflexivity | vm_compute; reflexivity | discriminate].
Defined.

Lemma resting_between_calls_witness :
  currentRunnableType manager = type_test
  /\ Forall (fun r => currentRunnableType (snd r) = type_test)
            (runCalls calls manager)
  /\ length (runCalls calls manager) = 4%nat.
Proof.
  assert (Hcalls : Forall (fun c : Call W Z =>
                             description c = None -> keepsResting (operation c))
                          calls).
  { unfold calls. repeat constructor; try discriminate.
    intros _. apply andThen_keepsResting.
    - apply lift_slow_keepsResting.
    - apply withRunnable_keepsResting. discriminate. }
  destruct (resting_between_calls 30000 store calls Hcalls) as [H0 Hall].
  split; [exact H0 | split; [exact Hall | reflexivity]].
Defined.

Lemma withRunnable_unguarded_witness :
  fst (withRunnable None (takes 0 (Resolved 5)) (during beforeAllHook))
  = Resolved 5
  /\ currentRunnableType
       (snd (withRunnable None (takes 0 (Resolved 5)) (during beforeAllHook)))
     = type_beforeAll
  /\ resolvedTimeout
       (snd (withRunnable None (takes 0 (Resolved 5)) (during beforeAllHook)))
     = 5000.
Proof.
  destruct (withRunnable_unguarded (takes 0 (Resolved 5)) (during beforeAllHook))
    as (Hout & Hstate & _).
  cbv zeta in Hstate.
  split; [rewrite Hout; reflexivity |].
  rewrite Hstate. split; reflexivity.
Defined.

Lemma slow_triples_witness :
  resolvedTimeout (slow manager) = 90000
  /\ resolvedTimeout (slow (slow manager)) = 270000
  /\ resolvedTimeout (slow (slow (slow manager))) = 810000
  /\ Stopwatch.limit (_timeoutRunner (slow manager)) = 90000.
Proof.
  destruct (slow_triples manager) as (H1 & Hpush & _ & _ & H2 & H3).
  split; [rewrite H1; reflexivity |].
  split; [rewrite H2; reflexivity |].
  split; [rewrite H3; reflexivity |].
  rewrite Hpush. reflexivity.
Defined.

Lemma setTimeout_spec_witness :
  setTimeout 1000 (during debugTest) = during debugTest
  /\ resolvedTimeout (setTimeout 1000 (during beforeAllHook)) = 1000
  /\ resolvedTimeout (setTimeout 0 manager) = 0.
Proof.
  split; [| split].
  - apply (proj1 (setTimeout_spec 1000 (during debugTest))). reflexivity.
  - apply (proj2 (setTimeout_spec 1000 (during beforeAllHook))).
    vm_compute. discriminate.
  - apply (proj2 (setTimeout_spec 0 manager)). vm_compute. discriminate.
Defined.

Lemma slow_keeps_disabled_witness :
  resolvedTimeout (during debugTest) = 0
  /\ resolvedTimeout (Nat.iter 5 slow (during debugTest)) = 0
  /\ setTimeout 1000 (Nat.iter 5 slow (during debugTest))
     = Nat.iter 5 slow (during debugTest).
Proof.
  split; [reflexivity |].
  apply (proj2 (slow_keeps_disabled 5 1000 (during debugTest) eq_refl)).
Defined.

Lemma fixture_slot_error_witness :
  message (_createTimeoutError (during fixtureTeardown))
  = "Fixture " ++ dquote ++ "db" ++ dquote
      ++ " timeout of 5000ms exceeded during teardown."
  /\ stack (_createTimeoutError (during fixtureTeardown))
     = message (_createTimeoutError (during fixtureTeardown))
         ++ newline ++ "    at fixtures.ts:12:3"
  /\ stack (_createTimeoutError (during fixtureSetup))
     = message (_createTimeoutError (during fixtureSetup))
         ++ newline ++ "    at a.spec.ts:7:1".
Proof.
  destruct (proj1 (fixture_slot_error (during fixtureTeardown))
              (dbFixture phase_teardown (Some 0%nat)) 0%nat eq_refl eq_refl)
    as [Hmsg Hstack].
  split; [rewrite Hmsg; vm_compute; reflexivity |].
  split; [rewrite Hstack; reflexivity |].
  rewrite (proj2 (fixture_slot_error (during fixtureSetup))).
  - reflexivity.
  - intros f Hf. injection Hf as <-. reflexivity.
Defined.

Lemma test_timeout_error_witness :
  message (_createTimeoutError manager) = "Test timeout of 30000ms exceeded."
  /\ name (_createTimeoutError manager) = ""
  /\ stack (_createTimeoutError manager) = "Test timeout of 30000ms exceeded."
  /\ stack (_createTimeoutError (during (hook type_test None None)))
     = "Test timeout of 30000ms exceeded." ++ newline ++ "    at a.spec.ts:7:1".
Proof.
  destruct (test_timeout_error manager eq_refl eq_refl)
    as (Hmsg & Hname & _ & Hbare).
  destruct (test_timeout_error (during (hook type_test None None))
              eq_refl eq_refl) as (Hmsg' & _ & Hloc & _).
  cbv zeta in *.
  split; [rewrite Hmsg; vm_compute; reflexivity |].
  split; [exact Hname |].
  split; [rewrite (Hbare eq_refl), Hmsg; vm_compute; reflexivity |].
  rewrite (Hloc _ eq_refl), Hmsg'. vm_compute. reflexivity.
Defined.

(** C7 as stated fails when styling is on: for the fixture with its own
    slot, the message of the error is not the fixture message itself. *)
Lemma fixture_slot_error_styled :
  fixtureWithSlot (_runnable (during fixtureTeardown))
  = Some (dbFixture phase_teardown (Some 0%nat))
  /\ message (@_createTimeoutError W ansiColors (during fixtureTeardown))
     <> "Fixture " ++ dquote ++ "db" ++ dquote
          ++ " timeout of 5000ms exceeded during teardown.".
Proof. split; [reflexivity | vm_compute; discriminate]. Qed.

(** C9 as stated fails when styling is on: for the test phase without a
    fixture and a budget of 30000, the message of the error is not
    "Test timeout of 30000ms exceeded." itself. *)
Lemma test_timeout_error_styled :
  Runnable.type (_runnable manager) = type_test
  /\ Runnable.fixture (_runnable manager) = None
  /\ resolvedTimeout manager = 30000
  /\ message (@_createTimeoutError W ansiColors manager)
     <> "Test timeout of 30000ms exceeded.".
Proof. repeat split. vm_compute. discriminate. Qed.

End Witnesses.

(** * Further properties of the manager *)

Lemma get_writeElapsed_same (l : slot_ref) (e : Z) (h : Heap.t) :
  Heap.get (writeElapsed l e h) l
  = {| timeout := timeout (Heap.get h l); elapsed := e |}.
Proof. unfold writeElapsed. apply get_set_same. Qed.

Lemma get_writeElapsed_other (l l' : slot_ref) (e : Z) (h : Heap.t) :
  l' <> l -> Heap.get (writeElapsed l e h) l' = Heap.get h l'.
Proof. unfold writeElapsed. apply get_set_other. Qed.

Lemma get_writeTimeout_same (l : slot_ref) (x : Z) (h : Heap.t) :
  Heap.get (writeTimeout l x h) l
  = {| timeout := x; elapsed := elapsed (Heap.get h l) |}.
Proof. unfold writeTimeout. apply get_set_same. Qed.

Lemma get_writeTimeout_other (l l' : slot_ref) (x : Z) (h : Heap.t) :
  l' <> l -> Heap.get (writeTimeout l x h) l' = Heap.get h l'.
Proof. unfold writeTimeout. apply get_set_other. Qed.

Lemma timeout_writeElapsed (l l' : slot_ref) (e : Z) (h : Heap.t) :
  timeout (Heap.get (writeElapsed l e h) l') = timeout (Heap.get h l').
Proof.
  destruct (Nat.eq_dec l' l) as [-> | Hne].
  - now rewrite get_writeElapsed_same.
  - now rewrite get_writeElapsed_other.
Qed.

Lemma elapsed_writeTimeout (l l' : slot_ref) (x : Z) (h : Heap.t) :
  elapsed (Heap.get (writeTimeout l x h) l') = elapsed (Heap.get h l').
Proof.
  destruct (Nat.eq_dec l' l) as [-> | Hne].
  - now rewrite get_writeTimeout_same.
  - now rewrite get_writeTimeout_other.
Qed.

Lemma slot_eta (v : TimeSlot) :
  {| timeout := timeout v; elapsed := elapsed v |} = v.
Proof. now destruct v. Qed.

Lemma append_assoc3 (a b c : string) : (a ++ b) ++ c = a ++ b ++ c.
Proof. induction a as [| ch a IH]; simpl; [reflexivity | now rewrite IH]. Qed.

Section MoreProperties.
Context {T : Type} {timer : TimeoutRunner T} {colors : Colors} {A : Type}.

Lemma currentSlot_ext (a b : State T) :
  _runnable a = _runnable b -> _defaultSlot a = _defaultSlot b ->
  _currentSlot a = _currentSlot b.
Proof. unfold _currentSlot. now intros -> ->. Qed.

Lemma slots_updateRunnable (r : RunnableDescription) (s : State T) :
  slots (_updateRunnable r s)
  = writeElapsed (_currentSlot s) (tr_elapsed (_timeoutRunner s)) (slots s).
Proof. reflexivity. Qed.

Lemma timer_updateRunnable (r : RunnableDescription) (s : State T) :
  _timeoutRunner (_updateRunnable r s)
  = tr_updateTimeout (resolvedTimeout (_updateRunnable r s))
                     (Some (resolvedElapsed (_updateRunnable r s)))
                     (_timeoutRunner s).
Proof. reflexivity. Qed.

Lemma slots_setTimeout (x : Z) (s : State T) :
  slots (setTimeout x s)
  = if Z.eqb (resolvedTimeout s) 0 then slots s
    else writeTimeout (_currentSlot s) x (slots s).
Proof.
  unfold setTimeout, resolvedTimeout, truthy.
  now destruct (Z.eqb (timeout (Heap.get (slots s) (_currentSlot s))) 0).
Qed.

Lemma currentSlot_setTimeout (x : Z) (s : State T) :
  _currentSlot (setTimeout x s) = _currentSlot s.
Proof.
  unfold setTimeout.
  now destruct (negb (truthy (timeout (Heap.get (slots s) (_currentSlot s))))).
Qed.

Lemma resolvedTimeout_setTimeout (x : Z) (s : State T) :
  resolvedTimeout (setTimeout x s)
  = if Z.eqb (resolvedTimeout s) 0 then 0 else x.
Proof.
  unfold resolvedTimeout at 1.
  rewrite currentSlot_setTimeout, slots_setTimeout.
  destruct (Z.eqb (resolvedTimeout s) 0) eqn:Hz.
  - now apply Z.eqb_eq in Hz.
  - now rewrite get_writeTimeout_same.
Qed.

(** ** Construction *)

(** X1. The constructor puts the default slot in a new object: the slots
    that exist keep their values, the new manager is at rest on a budget
    of its argument with nothing elapsed, and its Timer is created with
    that budget.  A second manager created afterwards has another default
    slot, and tripling its budget leaves the budget of the first alone. *)
Theorem constructor_fresh (x y : Z) (h : Heap.t) :
  let s := constructor x h in
  let s2 := constructor y (slots s) in
  (forall l, l <> _defaultSlot s -> Heap.get (slots s) l = Heap.get h l)
  /\ (forall l, (l < Heap.next h)%nat -> l <> _defaultSlot s)
  /\ Heap.get (slots s) (_currentSlot s) = {| timeout := x; elapsed := 0 |}
  /\ _runnable s = restingRunnable
  /\ _timeoutRunner s = tr_new x
  /\ _defaultSlot s2 <> _defaultSlot s
  /\ Heap.get (slots (slow s2)) (_defaultSlot s)
     = {| timeout := x; elapsed := 0 |}.
Proof.
  cbv zeta. unfold constructor, Heap.alloc.
  cbn [_defaultSlot slots _runnable _timeoutRunner Heap.next].
  split; [| split; [| split; [| split; [| split; [| split]]]]].
  - intros l Hne. unfold Heap.get; cbn [Heap.cell].
    apply Nat.eqb_neq in Hne. now rewrite Hne.
  - intros l Hlt. lia.
  - unfold _currentSlot, fixtureSlot, Heap.get; cbn.
    now rewrite Nat.eqb_refl.
  - reflexivity.
  - reflexivity.
  - lia.
  - unfold slow, _currentSlot, fixtureSlot.
    cbn [_runnable restingRunnable Runnable.fixture Runnable.slot
         _defaultSlot slots].
    rewrite get_writeTimeout_other by lia.
    unfold Heap.get; cbn [Heap.cell].
    replace (Nat.eqb (Heap.next h) (S (Heap.next h))) with false
      by (symmetry; apply Nat.eqb_neq; lia).
    now rewrite Nat.eqb_refl.
Qed.

(** ** Reading the default slot *)

(** X2. [defaultSlotTimings] returns the default slot after stamping the
    Timer's elapsed reading on the resolved slot.  When the resolved slot
    is the default slot, the slot returned carries that reading; when the
    current phase resolves to a slot of its own, the default slot returned
    is as it was, its elapsed time not brought up to date.  The budget of
    every slot, the runnable and the Timer are left alone. *)
Theorem defaultSlotTimings_spec (s : State T) :
  let d := fst (defaultSlotTimings s) in
  let s' := snd (defaultSlotTimings s) in
  d = _defaultSlot s
  /\ resolvedElapsed s' = tr_elapsed (_timeoutRunner s)
  /\ (_currentSlot s = _defaultSlot s ->
      Heap.get (slots s') d
      = {| timeout := timeout (Heap.get (slots s) (_defaultSlot s));
           elapsed := tr_elapsed (_timeoutRunner s) |})
  /\ (_currentSlot s <> _defaultSlot s ->
      Heap.get (slots s') d = Heap.get (slots s) (_defaultSlot s))
  /\ (forall l, timeout (Heap.get (slots s') l) = timeout (Heap.get (slots s) l))
  /\ _runnable s' = _runnable s
  /\ _timeoutRunner s' = _timeoutRunner s.
Proof.
  cbv zeta. unfold defaultSlotTimings; cbn [fst snd].
  unfold resolvedElapsed; cbn [slots].
  split; [reflexivity |].
  split.
  { change (_currentSlot _) with (_currentSlot s) at 1.
    now rewrite get_writeElapsed_same. }
  split; [intros ->; apply get_writeElapsed_same |].
  split; [intros Hne; apply get_writeElapsed_other; congruence |].
  split; [intros l; apply timeout_writeElapsed |].
  split; reflexivity.
Qed.

(** ** What the methods write *)

(** X3. Each synchronous method writes to one slot at most, the one
    resolved when it is called: every other slot is after [slow],
    [setTimeout], [_updateRunnable] and [defaultSlotTimings] what it was
    before, and [interrupt] writes to no slot at all. *)
Theorem methods_write_resolved_slot (x : Z) (r : RunnableDescription)
    (s : State T) (l : slot_ref) :
  l <> _currentSlot s ->
  Heap.get (slots (slow s)) l = Heap.get (slots s) l
  /\ Heap.get (slots (setTimeout x s)) l = Heap.get (slots s) l
  /\ Heap.get (slots (_updateRunnable r s)) l = Heap.get (slots s) l
  /\ Heap.get (slots (snd (defaultSlotTimings s))) l = Heap.get (slots s) l
  /\ slots (interrupt s) = slots s.
Proof.
  intros Hne.
  split; [apply get_writeTimeout_other; exact Hne |].
  split.
  { rewrite slots_setTimeout.
    destruct (Z.eqb (resolvedTimeout s) 0); [reflexivity |].
    now apply get_writeTimeout_other. }
  split; [rewrite slots_updateRunnable; now apply get_writeElapsed_other |].
  split; [now apply get_writeElapsed_other | reflexivity].
Qed.

(** X4. Switching the runnable and reading the default slot never change
    a budget, and [slow] and [setTimeout] never change an elapsed time:
    budgets change through [slow] and [setTimeout] only, elapsed times
    through [_updateRunnable] and [defaultSlotTimings] only. *)
Theorem budgets_and_elapsed_apart (x : Z) (r : RunnableDescription)
    (s : State T) (l : slot_ref) :
  timeout (Heap.get (slots (_updateRunnable r s)) l)
  = timeout (Heap.get (slots s) l)
  /\ timeout (Heap.get (slots (snd (defaultSlotTimings s))) l)
     = timeout (Heap.get (slots s) l)
  /\ elapsed (Heap.get (slots (slow s)) l) = elapsed (Heap.get (slots s) l)
  /\ elapsed (Heap.get (slots (setTimeout x s)) l)
     = elapsed (Heap.get (slots s) l).
Proof.
  split; [rewrite slots_updateRunnable; apply timeout_writeElapsed |].
  split; [apply timeout_writeElapsed |].
  split; [apply elapsed_writeTimeout |].
  rewrite slots_setTimeout.
  destruct (Z.eqb (resolvedTimeout s) 0); [reflexivity |].
  apply elapsed_writeTimeout.
Qed.

(** ** How the adjustments compose *)

(** X5. [setTimeout(x)] after [slow()] gives the budget [setTimeout(x)]
    alone gives: the tripling is discarded.  [slow()] after [setTimeout(x)]
    on a budget that is not zero gives three times [x].  Two calls of
    [setTimeout] give the second value, unless the budget was zero or the
    first value is zero, in which cases the budget is zero. *)
Theorem setTimeout_slow_compose (x y : Z) (s : State T) :
  resolvedTimeout (setTimeout x (slow s)) = resolvedTimeout (setTimeout x s)
  /\ (resolvedTimeout s <> 0 ->
      resolvedTimeout (slow (setTimeout x s)) = 3 * x)
  /\ resolvedTimeout (setTimeout y (setTimeout x s))
     = if Z.eqb (resolvedTimeout s) 0 then 0
       else if Z.eqb x 0 then 0 else y.
Proof.
  split; [| split].
  - rewrite !resolvedTimeout_setTimeout, resolvedTimeout_slow.
    destruct (Z.eqb_spec (resolvedTimeout s) 0) as [-> | Hne];
      [reflexivity |].
    destruct (Z.eqb_spec (resolvedTimeout s * 3) 0); [lia | reflexivity].
  - intros Hne. rewrite resolvedTimeout_slow, resolvedTimeout_setTimeout.
    destruct (Z.eqb_spec (resolvedTimeout s) 0); lia.
  - rewrite !resolvedTimeout_setTimeout.
    destruct (Z.eqb (resolvedTimeout s) 0); reflexivity.
Qed.

Lemma adjust_disabled (a : Adjustment) (s : State T) :
  resolvedTimeout s = 0 -> resolvedTimeout (adjust a s) = 0.
Proof.
  intros Hz. destruct a as [| x]; cbn [adjust].
  - rewrite resolvedTimeout_slow, Hz. reflexivity.
  - rewrite resolvedTimeout_setTimeout, Hz. reflexivity.
Qed.

Lemma adjustAll_disabled (l : list Adjustment) :
  forall s : State T, resolvedTimeout s = 0 ->
                      resolvedTimeout (adjustAll l s) = 0.
Proof.
  unfold adjustAll. induction l as [| a l IH]; intros s Hz; cbn [fold_left].
  - exact Hz.
  - apply IH. now apply adjust_disabled.
Qed.

(** X6. [setTimeout(0)] switches the budget of the phase off for good:
    after it, whatever the budget was, no sequence of calls of [slow] and
    [setTimeout] in the same phase gives a budget other than zero. *)
Theorem setTimeout_zero_is_final (l : list Adjustment) (s : State T) :
  resolvedTimeout (adjustAll l (setTimeout 0 s)) = 0.
Proof.
  apply adjustAll_disabled. rewrite resolvedTimeout_setTimeout.
  now destruct (Z.eqb (resolvedTimeout s) 0).
Qed.

(** ** What a guarded call leaves *)

Lemma withRunnable_present_state (r : RunnableDescription) (cb : M T A)
    (s : State T) :
  snd (withRunnable (Some r) cb s)
  = _updateRunnable restingRunnable (snd (cb (_updateRunnable r s))).
Proof. rewrite withRunnable_present. cbn [snd]. now rewrite run_state. Qed.

(** X7. A call with a description leaves as current runnable the resting
    one, without location, slot or fixture, whatever runnable was current
    when the call was made: a call made inside another phase does not put
    that phase's description back.  The slot resolved afterwards is the
    default slot, the Timer has been given its budget and elapsed time,
    and a timeout error built then is the plain test timeout on the
    default budget. *)
Theorem withRunnable_exit_resting (r : RunnableDescription) (cb : M T A)
    (s : State T) :
  let s' := snd (withRunnable (Some r) cb s) in
  _runnable s' = restingRunnable
  /\ _currentSlot s' = _defaultSlot s'
  /\ _timeoutRunner s'
     = tr_updateTimeout (timeout (Heap.get (slots s') (_defaultSlot s')))
                        (Some (elapsed (Heap.get (slots s') (_defaultSlot s'))))
                        (_timeoutRunner (snd (cb (_updateRunnable r s))))
  /\ message (_createTimeoutError s')
     = red ("Test timeout of "
              ++ show (timeout (Heap.get (slots s') (_defaultSlot s')))
              ++ "ms exceeded.")
  /\ stack (_createTimeoutError s') = message (_createTimeoutError s').
Proof.
  cbv zeta. rewrite withRunnable_present_state.
  split; [reflexivity | split; [reflexivity | split; [reflexivity |]]].
  split; [reflexivity |].
  unfold _createTimeoutError, errorLocation; cbn [stack message].
  cbn [_updateRunnable _runnable fixtureWithSlot restingRunnable
       Runnable.fixture Runnable.location locationLine].
  apply append_empty.
Qed.

(** X8. The Timer's timeout signal never comes out of a call with a
    description: whatever the operation and the Timer do, the call does
    not fail with [TimeoutRunnerError]. *)
Theorem withRunnable_hides_timer_signal (r : RunnableDescription)
    (cb : M T A) (s : State T) :
  fst (withRunnable (Some r) cb s) <> Rejected TimeoutRunnerError.
Proof.
  rewrite withRunnable_present. cbn [fst].
  destruct (fst (run cb (_updateRunnable r s))) as [v | e];
    [discriminate |].
  destruct e; cbn [isTimeoutRunnerError]; discriminate.
Qed.

(** X9. A call of [withRunnable], with or without a description, around
    an operation that changes no budget changes no budget: phase switching
    alone never alters a timeout. *)
Theorem withRunnable_keeps_budgets (d : option RunnableDescription)
    (cb : M T A) (s : State T) (l : slot_ref) :
  keepsBudgets cb ->
  timeout (Heap.get (slots (snd (withRunnable d cb s))) l)
  = timeout (Heap.get (slots s) l).
Proof.
  intros Hcb. destruct d as [r |].
  - rewrite withRunnable_present_state.
    rewrite slots_updateRunnable, timeout_writeElapsed, Hcb.
    rewrite slots_updateRunnable. apply timeout_writeElapsed.
  - apply Hcb.
Qed.

(** ** Where the time of a phase is charged *)

(** X10. A phase that resolves to a slot of its own is not charged to the
    default budget.  When the manager resolves to the default slot, the
    description resolves to another slot and only time passes during the
    operation, then after the call the default slot carries the Timer's
    reading of the moment the call was made, the phase's slot carries the
    reading of the moment the operation settled, and the Timer is set
    back to the default budget with the elapsed time it had on entry. *)
Theorem own_slot_phase_not_charged (r : RunnableDescription) (cb : M T A)
    (s : State T) :
  _currentSlot s = _defaultSlot s ->
  _currentSlot (_updateRunnable r s) <> _defaultSlot s ->
  onlyTimePasses cb ->
  let own := _currentSlot (_updateRunnable r s) in
  let settled := snd (cb (_updateRunnable r s)) in
  let s' := snd (withRunnable (Some r) cb s) in
  Heap.get (slots s') (_defaultSlot s)
  = {| timeout := timeout (Heap.get (slots s) (_defaultSlot s));
       elapsed := tr_elapsed (_timeoutRunner s) |}
  /\ Heap.get (slots s') own
     = {| timeout := timeout (Heap.get (slots s) own);
          elapsed := tr_elapsed (_timeoutRunner settled) |}
  /\ _timeoutRunner s'
     = tr_updateTimeout (timeout (Heap.get (slots s) (_defaultSlot s)))
                        (Some (tr_elapsed (_timeoutRunner s)))
                        (_timeoutRunner settled).
Proof.
  intros Hrest Hown Hcb. cbv zeta.
  destruct (Hcb (_updateRunnable r s)) as (Hd & Hr & Hs).
  assert (Hcur : _currentSlot (snd (cb (_updateRunnable r s)))
                 = _currentSlot (_updateRunnable r s))
    by now apply currentSlot_ext.
  assert (Hdef : Heap.get (slots (_updateRunnable restingRunnable
                                    (snd (cb (_updateRunnable r s)))))
                          (_defaultSlot s)
                 = {| timeout := timeout (Heap.get (slots s) (_defaultSlot s));
                      elapsed := tr_elapsed (_timeoutRunner s) |}).
  { rewrite slots_updateRunnable, Hcur.
    rewrite get_writeElapsed_other by congruence.
    rewrite Hs, slots_updateRunnable, Hrest.
    apply get_writeElapsed_same. }
  rewrite withRunnable_present_state.
  split; [exact Hdef | split].
  - rewrite slots_updateRunnable, Hcur, get_writeElapsed_same.
    rewrite Hs, slots_updateRunnable.
    rewrite get_writeElapsed_other by (rewrite Hrest; exact Hown).
    reflexivity.
  - rewrite timer_updateRunnable.
    unfold resolvedTimeout, resolvedElapsed.
    change (_currentSlot (_updateRunnable restingRunnable
                            (snd (cb (_updateRunnable r s)))))
      with (_defaultSlot (snd (cb (_updateRunnable r s)))).
    rewrite Hd.
    change (_defaultSlot (_updateRunnable r s)) with (_defaultSlot s).
    now rewrite Hdef.
Qed.

(** X11. A phase that resolves to the default slot is charged to the
    default budget.  When the manager and the description both resolve to
    the default slot and only time passes during the operation, then after
    the call the default slot carries the Timer's reading of the moment
    the operation settled, and the Timer goes on from that reading on the
    default budget. *)
Theorem default_slot_phase_charged (r : RunnableDescription) (cb : M T A)
    (s : State T) :
  _currentSlot s = _defaultSlot s ->
  _currentSlot (_updateRunnable r s) = _defaultSlot s ->
  onlyTimePasses cb ->
  let settled := snd (cb (_updateRunnable r s)) in
  let s' := snd (withRunnable (Some r) cb s) in
  Heap.get (slots s') (_defaultSlot s)
  = {| timeout := timeout (Heap.get (slots s) (_defaultSlot s));
       elapsed := tr_elapsed (_timeoutRunner settled) |}
  /\ _timeoutRunner s'
     = tr_updateTimeout (timeout (Heap.get (slots s) (_defaultSlot s)))
                        (Some (tr_elapsed (_timeoutRunner settled)))
                        (_timeoutRunner settled).
Proof.
  intros Hrest Hsame Hcb. cbv zeta.
  destruct (Hcb (_updateRunnable r s)) as (Hd & Hr & Hs).
  assert (Hcur : _currentSlot (snd (cb (_updateRunnable r s)))
                 = _defaultSlot s)
    by (rewrite <- Hsame; now apply currentSlot_ext).
  assert (Hdef : Heap.get (slots (_updateRunnable restingRunnable
                                    (snd (cb (_updateRunnable r s)))))
                          (_defaultSlot s)
                 = {| timeout := timeout (Heap.get (slots s) (_defaultSlot s));
                      elapsed := tr_elapsed
                                   (_timeoutRunner
                                      (snd (cb (_updateRunnable r s)))) |}).
  { rewrite slots_updateRunnable, Hcur, get_writeElapsed_same.
    rewrite Hs, slots_updateRunnable, Hrest, get_writeElapsed_same.
    reflexivity. }
  rewrite withRunnable_present_state.
  split; [exact Hdef |].
  rewrite timer_updateRunnable.
  unfold resolvedTimeout, resolvedElapsed.
  change (_currentSlot (_updateRunnable restingRunnable
                          (snd (cb (_updateRunnable r s)))))
    with (_defaultSlot (snd (cb (_updateRunnable r s)))).
  rewrite Hd.
  change (_defaultSlot (_updateRunnable r s)) with (_defaultSlot s).
  now rewrite Hdef.
Qed.

(** X12. With a Timer whose reading after [updateTimeout(timeout,
    elapsed)] is the elapsed time it was given: right after a switch the
    Timer reads the elapsed time of the slot now resolved, and a switch to
    another runnable followed at once by the switch back gives the Timer
    the reading it had and leaves every slot other than the one resolved
    at the start as it was. *)
Theorem switch_round_trip (r : RunnableDescription) (s : State T) :
  creditsElapsed ->
  let there := _updateRunnable r s in
  let back := _updateRunnable (_runnable s) there in
  tr_elapsed (_timeoutRunner there) = resolvedElapsed there
  /\ tr_elapsed (_timeoutRunner back) = tr_elapsed (_timeoutRunner s)
  /\ resolvedElapsed back = tr_elapsed (_timeoutRunner s)
  /\ (forall l, l <> _currentSlot s ->
                Heap.get (slots back) l = Heap.get (slots s) l).
Proof.
  intros Hlaw. cbv zeta.
  assert (Hthere : tr_elapsed (_timeoutRunner (_updateRunnable r s))
                   = resolvedElapsed (_updateRunnable r s))
    by (rewrite timer_updateRunnable; apply Hlaw).
  assert (Hcur : _currentSlot (_updateRunnable (_runnable s)
                                 (_updateRunnable r s)) = _currentSlot s)
    by now apply currentSlot_ext.
  assert (Hslots : forall l,
             Heap.get (slots (_updateRunnable (_runnable s)
                                (_updateRunnable r s))) l
             = Heap.get (slots (_updateRunnable r s)) l).
  { intros l. rewrite (slots_updateRunnable (_runnable s)), Hthere.
    unfold resolvedElapsed.
    destruct (Nat.eq_dec l (_currentSlot (_updateRunnable r s)))
      as [-> | Hne].
    - rewrite get_writeElapsed_same. apply slot_eta.
    - now apply get_writeElapsed_other. }
  assert (Hback : resolvedElapsed (_updateRunnable (_runnable s)
                                     (_updateRunnable r s))
                  = tr_elapsed (_timeoutRunner s)).
  { unfold resolvedElapsed. rewrite Hcur, Hslots, slots_updateRunnable.
    now rewrite get_writeElapsed_same. }
  split; [exact Hthere | split; [| split; [exact Hback |]]].
  - rewrite timer_updateRunnable, Hlaw. exact Hback.
  - intros l Hne. rewrite Hslots, slots_updateRunnable.
    now apply get_writeElapsed_other.
Qed.

(** X13. Calls of [slow] made by the operation of a guarded call act on
    the slot the description resolves to: after a call whose operation is
    one [slow()], that slot has three times its budget and every other
    slot, the default slot among them when it is another one, has the
    budget it had. *)
Theorem slow_inside_phase (r : RunnableDescription) (v : A) (s : State T) :
  let own := _currentSlot (_updateRunnable r s) in
  let s' := snd (withRunnable (Some r) (lift slow v) s) in
  timeout (Heap.get (slots s') own) = 3 * timeout (Heap.get (slots s) own)
  /\ (forall l, l <> own ->
                timeout (Heap.get (slots s') l) = timeout (Heap.get (slots s) l)).
Proof.
  cbv zeta. rewrite withRunnable_present_state.
  unfold lift; cbn [snd].
  split.
  - rewrite slots_updateRunnable, timeout_writeElapsed.
    unfold slow at 1; cbn [slots].
    rewrite get_writeTimeout_same; cbn [timeout].
    rewrite slots_updateRunnable, timeout_writeElapsed. lia.
  - intros l Hne.
    rewrite slots_updateRunnable, timeout_writeElapsed.
    unfold slow at 1; cbn [slots].
    rewrite get_writeTimeout_other by exact Hne.
    rewrite slots_updateRunnable. apply timeout_writeElapsed.
Qed.

(** ** The table of messages *)

Lemma createTimeoutError_plain (s : State T) :
  fixtureWithSlot (_runnable s) = None ->
  message (_createTimeoutError s)
  = red (typeMessage (_runnable s) (resolvedTimeout s))
  /\ stack (_createTimeoutError s)
     = message (_createTimeoutError s)
         ++ locationLine (Runnable.location (_runnable s)).
Proof.
  intros Hno. unfold _createTimeoutError, plainMessage, errorLocation.
  cbn [message stack]. now rewrite Hno.
Qed.

(** X14. For a hook or a modifier whose fixture, if any, has no slot of
    its own, the message of the timeout error is [colors.red] of: for
    [beforeEach] and [afterEach], "Test timeout of Xms exceeded while
    running "type" hook."; for [beforeAll] and [afterAll], ""type" hook
    timeout of Xms exceeded."; for [skip], [slow], [fixme] and [fail],
    ""type" modifier timeout of Xms exceeded."; X is the resolved budget
    and the fixture is not named.  The location line of the stack is that
    of the runnable. *)
Theorem hook_modifier_error (s : State T) :
  noFixtureSlot (_runnable s) ->
  let e := _createTimeoutError s in
  let ty := Runnable.type (_runnable s) in
  let X := show (resolvedTimeout s) in
  (ty = type_beforeEach \/ ty = type_afterEach ->
   message e = red ("Test timeout of " ++ X ++ "ms exceeded while running "
                      ++ dquote ++ typeName ty ++ dquote ++ " hook."))
  /\ (ty = type_beforeAll \/ ty = type_afterAll ->
      message e = red (dquote ++ typeName ty ++ dquote ++ " hook timeout of "
                         ++ X ++ "ms exceeded."))
  /\ (ty = type_skip \/ ty = type_slow \/ ty = type_fixme \/ ty = type_fail ->
      message e = red (dquote ++ typeName ty ++ dquote
                         ++ " modifier timeout of " ++ X ++ "ms exceeded."))
  /\ stack e = message e ++ locationLine (Runnable.location (_runnable s)).
Proof.
  intros Hno. cbv zeta.
  destruct (createTimeoutError_plain s (fixtureWithSlot_none _ Hno))
    as [Hmsg Hstack].
  split; [| split; [| split; [| exact Hstack]]];
    rewrite Hmsg; unfold typeMessage.
  - intros [-> | ->]; reflexivity.
  - intros [-> | ->]; reflexivity.
  - intros [-> | [-> | [-> | ->]]]; reflexivity.
Qed.

(** X15. For a runnable of type [test] or [teardown] whose fixture has no
    slot of its own, the message names the fixture: [colors.red] of "Test
    timeout of Xms exceeded while setting up "title"." in the setup of a
    test, of the two-line message on the teardown sharing the budget of
    the test in its teardown, and of "Worker teardown timeout of Xms
    exceeded while setting up / tearing down "title"." for the teardown of
    the worker; without a fixture the latter is "Worker teardown timeout
    of Xms exceeded.".  The location line of the stack is that of the
    runnable, not of the fixture. *)
Theorem slotless_fixture_error (s : State T) :
  let e := _createTimeoutError s in
  let ty := Runnable.type (_runnable s) in
  let X := show (resolvedTimeout s) in
  (forall f,
      Runnable.fixture (_runnable s) = Some f -> Fixture.slot f = None ->
      (ty = type_test -> Fixture.phase f = phase_setup ->
       message e = red ("Test timeout of " ++ X
                          ++ "ms exceeded while setting up " ++ dquote
                          ++ Fixture.title f ++ dquote ++ "."))
      /\ (ty = type_test -> Fixture.phase f = phase_teardown ->
          message e
          = red (("Test finished within timeout of " ++ X
                    ++ "ms, but tearing down " ++ dquote ++ Fixture.title f
                    ++ dquote ++ " ran out of time.")
                   ++ newline
                   ++ "Please allow more time for the test, since teardown is attributed towards the test timeout budget."))
      /\ (ty = type_teardown ->
          message e
          = red ("Worker teardown timeout of " ++ X ++ "ms exceeded while "
                   ++ match Fixture.phase f with
                      | phase_setup => "setting up"
                      | phase_teardown => "tearing down"
                      end
                   ++ " " ++ dquote ++ Fixture.title f ++ dquote ++ "."))
      /\ stack e = message e ++ locationLine (Runnable.location (_runnable s)))
  /\ (ty = type_teardown -> Runnable.fixture (_runnable s) = None ->
      message e = red ("Worker teardown timeout of " ++ X ++ "ms exceeded.")).
Proof.
  cbv zeta. split.
  - intros f Hf Hslot.
    assert (Hno : fixtureWithSlot (_runnable s) = None)
      by (unfold fixtureWithSlot; now rewrite Hf, Hslot).
    destruct (createTimeoutError_plain s Hno) as [Hmsg Hstack].
    split; [| split; [| split; [| exact Hstack]]];
      rewrite Hmsg; unfold typeMessage; rewrite Hf.
    + now intros -> ->.
    + now intros -> ->.
    + now intros ->.
  - intros Hty Hf.
    assert (Hno : fixtureWithSlot (_runnable s) = None)
      by (unfold fixtureWithSlot; now rewrite Hf).
    destruct (createTimeoutError_plain s Hno) as [Hmsg _].
    rewrite Hmsg. unfold typeMessage. now rewrite Hty, Hf.
Qed.

Lemma typeMessage_budget (r : RunnableDescription) (t : Z) :
  exists pre post, typeMessage r t = pre ++ show t ++ "ms" ++ post.
Proof.
  unfold typeMessage.
  destruct (Runnable.type r) eqn:Hty.
  - destruct (Runnable.fixture r) as [f |];
      [destruct (Fixture.phase f) |].
    + exists "Test timeout of ",
        (" exceeded while setting up " ++ dquote ++ Fixture.title f
           ++ dquote ++ ".").
      reflexivity.
    + exists "Test finished within timeout of ",
        ((", but tearing down " ++ dquote ++ Fixture.title f ++ dquote
            ++ " ran out of time.")
           ++ newline
           ++ "Please allow more time for the test, since teardown is attributed towards the test timeout budget.").
      rewrite !append_assoc3. reflexivity.
    + exists "Test timeout of ", " exceeded.". reflexivity.
  - exists (dquote ++ "beforeAll" ++ dquote ++ " hook timeout of "),
      " exceeded.".
    reflexivity.
  - exists (dquote ++ "afterAll" ++ dquote ++ " hook timeout of "),
      " exceeded.".
    reflexivity.
  - exists "Test timeout of ",
      (" exceeded while running " ++ dquote ++ "beforeEach" ++ dquote
         ++ " hook.").
    reflexivity.
  - exists "Test timeout of ",
      (" exceeded while running " ++ dquote ++ "afterEach" ++ dquote
         ++ " hook.").
    reflexivity.
  - exists (dquote ++ "slow" ++ dquote ++ " modifier timeout of "),
      " exceeded.".
    reflexivity.
  - exists (dquote ++ "skip" ++ dquote ++ " modifier timeout of "),
      " exceeded.".
    reflexivity.
  - exists (dquote ++ "fail" ++ dquote ++ " modifier timeout of "),
      " exceeded.".
    reflexivity.
  - exists (dquote ++ "fixme" ++ dquote ++ " modifier timeout of "),
      " exceeded.".
    reflexivity.
  - destruct (Runnable.fixture r) as [f |].
    + exists "Worker teardown timeout of ",
        (" exceeded while "
           ++ match Fixture.phase f with
              | phase_setup => "setting up"
              | phase_teardown => "tearing down"
              end
           ++ " " ++ dquote ++ Fixture.title f ++ dquote ++ ".").
      reflexivity.
    + exists "Worker teardown timeout of ", " exceeded.". reflexivity.
Qed.

(** X16. Whatever the phase, a timeout error has an empty name, a message
    that is [colors.red] of a text quoting the resolved budget as "Xms",
    and a stack made of the message followed by nothing or by one line
    "    at file:line:column". *)
Theorem timeout_error_shape (s : State T) :
  let e := _createTimeoutError s in
  name e = ""
  /\ (exists pre post,
         message e = red (pre ++ show (resolvedTimeout s) ++ "ms" ++ post))
  /\ (stack e = message e
      \/ exists loc,
           stack e = message e ++ newline ++ "    at " ++ file loc ++ ":"
                       ++ show (line loc) ++ ":" ++ show (column loc)).
Proof.
  cbv zeta. split; [reflexivity | split].
  - unfold _createTimeoutError, plainMessage; cbn [message].
    destruct (fixtureWithSlot (_runnable s)) as [f |].
    + exists ("Fixture " ++ dquote ++ Fixture.title f ++ dquote
                ++ " timeout of "),
        (" exceeded during " ++ phaseName (Fixture.phase f) ++ ".").
      cbn [append]. rewrite !append_assoc3. reflexivity.
    + destruct (typeMessage_budget (_runnable s) (resolvedTimeout s))
        as (pre & post & ->).
      now exists pre, post.
  - unfold _createTimeoutError; cbn [stack message].
    destruct (errorLocation s) as [loc |]; cbn [locationLine].
    + right. now exists loc.
    + left. apply append_empty.
Qed.

End MoreProperties.

(** * The further properties on the sample phases *)

Section MoreWitnesses.
Import Sample Scenario.
#[local] Existing Instance stopwatchRunner.
#[local] Existing Instance plainColors.

Lemma takes_onlyTimePasses (d : Z) (o : Outcome Z) : onlyTimePasses (takes d o).
Proof. intros s. repeat split. Qed.

Lemma takes_keepsBudgets (d : Z) (o : Outcome Z) : keepsBudgets (takes d o).
Proof. intros s l. reflexivity. Qed.

Lemma stopwatch_creditsElapsed : creditsElapsed (timer := stopwatchRunner).
Proof. intros x e t. reflexivity. Qed.

Lemma constructor_fresh_witness :
  Heap.get (slots manager) 0%nat = {| timeout := 5000; elapsed := 0 |}
  /\ _defaultSlot second <> _defaultSlot manager
  /\ Heap.get (slots (slow second)) (_defaultSlot manager)
     = {| timeout := 30000; elapsed := 0 |}.
Proof.
  destruct (constructor_fresh 30000 1000 store)
    as (Hold & _ & _ & _ & _ & Hother & Hfirst).
  split; [| split; [exact Hother | exact Hfirst]].
  exact (Hold 0%nat ltac:(vm_compute; discriminate)).
Defined.

Lemma defaultSlotTimings_spec_witness :
  Heap.get (slots (snd (defaultSlotTimings later)))
           (fst (defaultSlotTimings later))
  = {| timeout := 30000; elapsed := 250 |}
  /\ Heap.get (slots (snd (defaultSlotTimings
                            (snd (takes 40 (Resolved 0)
                                    (_updateRunnable beforeAllHook later))))))
              (fst (defaultSlotTimings
                      (snd (takes 40 (Resolved 0)
                              (_updateRunnable beforeAllHook later)))))
     = {| timeout := 30000; elapsed := 250 |}.
Proof.
  split.
  - rewrite (proj1 (proj2 (proj2 (defaultSlotTimings_spec later))) eq_refl).
    reflexivity.
  - rewrite (proj1 (proj2 (proj2 (proj2
               (defaultSlotTimings_spec
                  (snd (takes 40 (Resolved 0)
                          (_updateRunnable beforeAllHook later)))))))).
    + reflexivity.
    + vm_compute. discriminate.
Defined.

Lemma methods_write_resolved_slot_witness :
  Heap.get (slots (slow (during beforeAllHook))) 2%nat
  = {| timeout := 30000; elapsed := 0 |}
  /\ Heap.get (slots (setTimeout 1 (during beforeAllHook))) 2%nat
     = {| timeout := 30000; elapsed := 0 |}.
Proof.
  destruct (methods_write_resolved_slot 1 restingRunnable
              (during beforeAllHook) 2%nat ltac:(vm_compute; discriminate))
    as (Hslow & Hset & _).
  split; [rewrite Hslow | rewrite Hset]; reflexivity.
Defined.

Lemma setTimeout_slow_compose_witness :
  resolvedTimeout (setTimeout 700 (slow manager)) = 700
  /\ resolvedTimeout (slow (setTimeout 700 manager)) = 2100
  /\ resolvedTimeout (setTimeout 9000 (setTimeout 0 manager)) = 0.
Proof.
  destruct (setTimeout_slow_compose 700 9000 manager) as (H1 & H2 & _).
  destruct (setTimeout_slow_compose 0 9000 manager) as (_ & _ & H3).
  split; [rewrite H1; reflexivity |].
  split; [rewrite H2; [reflexivity | vm_compute; discriminate] |].
  rewrite H3. reflexivity.
Defined.

Lemma withRunnable_keeps_budgets_witness :
  timeout (Heap.get (slots (snd (withRunnable (Some beforeAllHook)
                                   (takes 6000 (Resolved 1)) manager))) 0%nat)
  = 5000
  /\ timeout (Heap.get (slots (snd (withRunnable (Some beforeAllHook)
                                      (takes 6000 (Resolved 1)) manager)))
                       2%nat)
     = 30000.
Proof.
  split.
  - rewrite (withRunnable_keeps_budgets (Some beforeAllHook)
               (takes 6000 (Resolved 1)) manager 0%nat
               (takes_keepsBudgets 6000 (Resolved 1))).
    reflexivity.
  - rewrite (withRunnable_keeps_budgets (Some beforeAllHook)
               (takes 6000 (Resolved 1)) manager 2%nat
               (takes_keepsBudgets 6000 (Resolved 1))).
    reflexivity.
Defined.

Lemma own_slot_phase_not_charged_witness :
  let s' := snd (withRunnable (Some beforeAllHook) (takes 100 (Resolved 1))
                   later) in
  Heap.get (slots s') 2%nat = {| timeout := 30000; elapsed := 250 |}
  /\ Heap.get (slots s') 0%nat = {| timeout := 5000; elapsed := 100 |}
  /\ Stopwatch.spent (_timeoutRunner s') = 250.
Proof.
  cbv zeta.
  destruct (own_slot_phase_not_charged beforeAllHook (takes 100 (Resolved 1))
              later eq_refl ltac:(vm_compute; discriminate)
              (takes_onlyTimePasses 100 (Resolved 1)))
    as (Hdefault & Hown & Htimer).
  split; [exact Hdefault | split; [exact Hown |]].
  rewrite Htimer. reflexivity.
Defined.

Lemma default_slot_phase_charged_witness :
  let s' := snd (withRunnable (Some (hook type_afterEach None None))
                   (takes 100 (Resolved 1)) later) in
  Heap.get (slots s') 2%nat = {| timeout := 30000; elapsed := 350 |}
  /\ Stopwatch.spent (_timeoutRunner s') = 350.
Proof.
  cbv zeta.
  destruct (default_slot_phase_charged (hook type_afterEach None None)
              (takes 100 (Resolved 1)) later eq_refl eq_refl
              (takes_onlyTimePasses 100 (Resolved 1)))
    as (Hdefault & Htimer).
  split; [exact Hdefault |].
  rewrite Htimer. reflexivity.
Defined.

Lemma switch_round_trip_witness :
  Stopwatch.spent (_timeoutRunner (_updateRunnable beforeAllHook later)) = 0
  /\ Stopwatch.spent
       (_timeoutRunner (_updateRunnable (_runnable later)
                          (_updateRunnable beforeAllHook later)))
     = 250.
Proof.
  destruct (switch_round_trip beforeAllHook later stopwatch_creditsElapsed)
    as (Hthere & Hback & _).
  split.
  - change (Stopwatch.spent ?t) with (tr_elapsed t).
    rewrite Hthere. reflexivity.
  - change (Stopwatch.spent ?t) with (tr_elapsed t).
    rewrite Hback. reflexivity.
Defined.

Lemma hook_modifier_error_witness :
  message (_createTimeoutError (during (plainHook type_beforeAll)))
  = dquote ++ "beforeAll" ++ dquote ++ " hook timeout of 30000ms exceeded."
  /\ message (_createTimeoutError (during (plainHook type_fixme)))
     = dquote ++ "fixme" ++ dquote ++ " modifier timeout of 30000ms exceeded."
  /\ stack (_createTimeoutError (during (plainHook type_afterEach)))
     = "Test timeout of 30000ms exceeded while running " ++ dquote
         ++ "afterEach" ++ dquote ++ " hook." ++ newline
         ++ "    at a.spec.ts:7:1".
Proof.
  assert (Hno : forall ty, noFixtureSlot (_runnable (during (plainHook ty)))).
  { intros ty f Hf. injection Hf as <-. reflexivity. }
  split; [| split].
  - rewrite (proj1 (proj2 (hook_modifier_error _ (Hno type_beforeAll))));
      [reflexivity | now left].
  - rewrite (proj1 (proj2 (proj2 (hook_modifier_error _ (Hno type_fixme)))));
      [reflexivity | now right; right; left].
  - destruct (hook_modifier_error _ (Hno type_afterEach))
      as (Hmsg & _ & _ & Hstack).
    cbv zeta in Hmsg, Hstack.
    rewrite Hstack, Hmsg; [vm_compute; reflexivity | now right].
Defined.

Lemma slotless_fixture_error_witness :
  message (_createTimeoutError (during (plainHook type_test)))
  = "Test timeout of 30000ms exceeded while setting up " ++ dquote ++ "db"
      ++ dquote ++ "."
  /\ stack (_createTimeoutError (during (plainHook type_test)))
     = message (_createTimeoutError (during (plainHook type_test)))
         ++ newline ++ "    at a.spec.ts:7:1".
Proof.
  destruct (proj1 (slotless_fixture_error (during (plainHook type_test)))
              (dbFixture phase_setup None) eq_refl eq_refl)
    as (Hsetup & _ & _ & Hstack).
  split; [rewrite (Hsetup eq_refl eq_refl); reflexivity |].
  rewrite Hstack. reflexivity.
Defined.

End MoreWitnesses.
